(** * The canary release controller of [scripts/automate_release.py]

    A shallow embedding of the release script: the probe client
    ([wait_for_health], [check_online_metric]), the staged traffic shift
    ([perform_staged_shift]) and the controller ([main]) with its release
    ledger, followed by the properties of the design document that concern
    them.

    Conventions of the model.
    - Text is a [string] of code points below 256.
    - Everything outside the process is an [environment]: the replies to the
      HTTP requests, the exit statuses of the child processes, whether the
      ratings file exists, the clock and the process environment.  The
      exceptions the script can meet are those of its own control flow: a
      child that exits with a non-zero status where the status is checked
      ([CalledProcessError]), an input file that is absent
      ([FileNotFoundError]) and the [SystemExit] the script raises itself.
      Resource failures (no executable, disk full) and interrupts are not
      part of the model.
    - Every effect is recorded, in order, in the [trace] of the [world].
    - Floating-point numbers are abstract: the script only parses them,
      compares them and prints them. *)

From Stdlib Require Import String Ascii List ZArith Lia Bool DecimalString.
From Stdlib Require Import PeanoNat.
Import ListNotations.
Open Scope string_scope.

(** ** Python's text primitives *)

Module Text.

Definition code (c : ascii) : N := N_of_ascii c.

(** The line boundaries of [str.splitlines] among the code points below
    256: LF, VT, FF, CR, FS, GS, RS and NEL. *)
Definition is_linebreak (c : ascii) : bool :=
  let n := code c in
  ((10 <=? n) && (n <=? 13) || (28 <=? n) && (n <=? 30) || (n =? 133))%N.

(** [str.isspace] on one code point below 256. *)
Definition isspace (c : ascii) : bool :=
  let n := code c in
  ((9 <=? n) && (n <=? 13) || (28 <=? n) && (n <=? 32)
   || (n =? 133) || (n =? 160))%N.

Definition is_empty (s : string) : bool :=
  match s with EmptyString => true | String _ _ => false end.

Definition snoc (s : string) (c : ascii) : string := s ++ String c "".

(** [splitlines_from acc s]: the lines of [acc ++ s], where [acc] holds
    the characters of the current line read so far.  A CR LF pair is one
    boundary; a last line without terminator is kept when not empty. *)
Fixpoint splitlines_from (acc s : string) : list string :=
  match s with
  | EmptyString => if is_empty acc then [] else [acc]
  | String c rest =>
      if (code c =? 13)%N then
        match rest with
        | String c' rest' =>
            if (code c' =? 10)%N then acc :: splitlines_from "" rest'
            else acc :: splitlines_from "" rest
        | EmptyString => acc :: splitlines_from "" rest
        end
      else if is_linebreak c then acc :: splitlines_from "" rest
      else splitlines_from (snoc acc c) rest
  end.

(** [str.splitlines()] *)
Definition splitlines (s : string) : list string := splitlines_from "" s.

Fixpoint split_from (acc s : string) : list string :=
  match s with
  | EmptyString => if is_empty acc then [] else [acc]
  | String c rest =>
      if isspace c then
        if is_empty acc then split_from "" rest
        else acc :: split_from "" rest
      else split_from (snoc acc c) rest
  end.

(** [str.split()] without argument: the maximal runs of characters that
    are not white space. *)
Definition split (s : string) : list string := split_from "" s.

(** [s.startswith(p)] *)
Definition startswith (s p : string) : bool := String.prefix p s.

(** [sep.join(l)] *)
Definition join (sep : string) (l : list string) : string :=
  String.concat sep l.

(** [str(n)] for an [int]. *)
Definition str_int (n : Z) : string := NilZero.string_of_int (Z.to_int n).


(** [Path / name] *)
Definition path_join (dir name : string) : string := dir ++ "/" ++ name.

End Text.

(** ** Exceptions *)

Inductive exn : Type :=
| CalledProcessError (returncode : Z) (cmd : list string)
| FileNotFoundError (filename : string)
| SystemExit (code : string).

(** [isinstance(e, subprocess.CalledProcessError)] *)
Definition is_CalledProcessError (e : exn) : bool :=
  match e with CalledProcessError _ _ => true | _ => false end.

(** [isinstance(e, Exception)]: [SystemExit] derives from [BaseException]
    only. *)
Definition is_Exception (e : exn) : bool :=
  match e with
  | CalledProcessError _ _ | FileNotFoundError _ => true
  | SystemExit _ => false
  end.

Definition exn_cmd (e : exn) : list string :=
  match e with CalledProcessError _ cmd => cmd | _ => [] end.

Definition repr_str (s : string) : string := "'" ++ s ++ "'".

(** [str(exc)] *)
Definition str_exn (e : exn) : string :=
  match e with
  | CalledProcessError rc cmd =>
      "Command '[" ++ Text.join ", " (map repr_str cmd)
      ++ "]' returned non-zero exit status " ++ Text.str_int rc ++ "."
  | FileNotFoundError f =>
      "[Errno 2] No such file or directory: " ++ repr_str f
  | SystemExit c => c
  end.

Inductive result (A : Type) : Type :=
| Ok (a : A)
| Raise (e : exn).
Arguments Ok {A} a.
Arguments Raise {A} e.

(** How a call of [main] ends, and the exit status the interpreter turns
    it into: 0 on return, 1 for a [SystemExit] carrying a message and for a
    traceback. *)
Inductive outcome : Type :=
| Returned
| Raised (e : exn).

Definition process_exit_status (o : outcome) : Z :=
  match o with
  | Returned => 0
  | Raised _ => 1
  end.

(** ** The outside world *)

Inductive response : Type :=
| Reply (status_code : Z) (text : string)
| RequestException (msg : string).

(** The record [release_entry] of [main], as [json.dumps] writes it; the
    key [reason] is absent until a handler or the abort path sets it. *)
Record release_entry : Type := {
  release_id : string;
  timestamp : string;
  image : option string;
  status : string;
  metrics_file : string;
  reason : option string
}.

Section Types.

Variable float : Type.

Inductive seconds : Type :=
| SecFloat (x : float)
| SecInt (n : Z).

Inductive event : Type :=
| EvValidating (stage : string)
    (* the line "Validating before stage '<stage>' ..." of [guard] *)
| EvGet (url : string)                          (* requests.get *)
| EvSleep (d : seconds)                         (* time.sleep *)
| EvRun (cmd : list string) (cwd : option string)   (* subprocess.run *)
| EvCheckOutput (cmd : list string) (cwd : option string)
    (* subprocess.check_output *)
| EvMkdir (dir : string)                        (* Path.mkdir *)
| EvMkdirParentOf (file : string)               (* file.parent.mkdir *)
| EvRead (file : string)                        (* open(file) and read *)
| EvWrite (file : string)                       (* Path.write_text *)
| EvAppend (file : string) (line : release_entry).
    (* open(file, "a") and write one line *)

Record world : Type := {
  gets : nat;                    (* HTTP requests issued so far *)
  spawned : nat;                 (* child processes started so far *)
  trace : list event;            (* effects so far, oldest first *)
  ledger : list release_entry    (* lines of the release log *)
}.

Record environment : Type := {
  parse_float : string -> option float;   (* float(s), None: ValueError *)
  float_ge : float -> float -> bool;      (* x >= y *)
  str_float : float -> string;            (* str(x) *)
  http_reply : nat -> response;      (* what the n-th request meets *)
  exit_status : nat -> Z;            (* status of the n-th child *)
  ratings_csv_exists : bool;
  utcnow_compact : string;           (* utcnow().strftime("%Y%m%d%H%M%S") *)
  utcnow_iso : string;               (* utcnow().isoformat() *)
  BG_TARGET_COLOR : option string;   (* os.environ.get("BG_TARGET_COLOR") *)
  REPO_ROOT : string;
  PYTHON_BIN : string
}.

(** The namespace returned by [parser.parse_args()]. *)
Record Args : Type := {
  execute : bool;
  mode : string;
  skip_ingest : bool;
  kafka_server : string;
  team_number : Z;
  test_size : float;
  k : Z;
  threshold : float;
  rmse_max : float;
  precision_min : float;
  recall_min : float;
  hit_rate_min : float;
  mrr_min : float;
  health_path : string;
  health_attempts : Z;
  health_interval : float;
  release_log : string;
  metrics_out : string;
  staged_shift : bool;
  shift_wait : Z;
  lb_url : string;
  online_metrics_url : string;
  online_metric_name : string;
  online_metric_min : option float;
  stop_old_on_success : bool;
  release_log_path : string;
  metrics_out_path : string
}.

End Types.

Arguments SecFloat {float} x.
Arguments SecInt {float} n.
Arguments EvValidating {float} stage.
Arguments EvGet {float} url.
Arguments EvSleep {float} d.
Arguments EvRun {float} cmd cwd.
Arguments EvCheckOutput {float} cmd cwd.
Arguments EvMkdir {float} dir.
Arguments EvMkdirParentOf {float} file.
Arguments EvRead {float} file.
Arguments EvWrite {float} file.
Arguments EvAppend {float} file line.
Arguments gets {float} w.
Arguments spawned {float} w.
Arguments trace {float} w.
Arguments ledger {float} w.
Arguments parse_float {float} e s.
Arguments float_ge {float} e x y.
Arguments str_float {float} e x.
Arguments http_reply {float} e n.
Arguments exit_status {float} e n.
Arguments ratings_csv_exists {float} e.
Arguments utcnow_compact {float} e.
Arguments utcnow_iso {float} e.
Arguments BG_TARGET_COLOR {float} e.
Arguments REPO_ROOT {float} e.
Arguments PYTHON_BIN {float} e.
Arguments execute {float} a.
Arguments mode {float} a.
Arguments skip_ingest {float} a.
Arguments kafka_server {float} a.
Arguments team_number {float} a.
Arguments test_size {float} a.
Arguments k {float} a.
Arguments threshold {float} a.
Arguments rmse_max {float} a.
Arguments precision_min {float} a.
Arguments recall_min {float} a.
Arguments hit_rate_min {float} a.
Arguments mrr_min {float} a.
Arguments health_path {float} a.
Arguments health_attempts {float} a.
Arguments health_interval {float} a.
Arguments release_log {float} a.
Arguments metrics_out {float} a.
Arguments staged_shift {float} a.
Arguments shift_wait {float} a.
Arguments lb_url {float} a.
Arguments online_metrics_url {float} a.
Arguments online_metric_name {float} a.
Arguments online_metric_min {float} a.
Arguments stop_old_on_success {float} a.
Arguments release_log_path {float} a.
Arguments metrics_out_path {float} a.

(** ** A state and exception monad for the body of [main] *)

Definition M (S A : Type) : Type := S -> result A * S.

Definition ret {S A : Type} (a : A) : M S A := fun s => (Ok a, s).

Definition raise {S A : Type} (e : exn) : M S A := fun s => (Raise e, s).

Definition bind {S A B : Type} (m : M S A) (f : A -> M S B) : M S B :=
  fun s =>
    match m s with
    | (Ok a, s') => f a s'
    | (Raise e, s') => (Raise e, s')
    end.

Declare Scope py_scope.
Delimit Scope py_scope with py.
Notation "x <- m ;; f" := (bind m (fun x => f))
  (at level 61, m at next level, right associativity) : py_scope.
Notation "m ;; f" := (bind m (fun _ => f))
  (at level 61, right associativity) : py_scope.

(** ** The script *)

Section Model.

Context {float : Type}.
Variable env : environment float.

Local Open Scope py_scope.

Definition emit (ev : event float) (w : world float) : world float :=
  {| gets := gets w; spawned := spawned w;
     trace := trace w ++ [ev]; ledger := ledger w |}.

(** *** Primitives of the libraries *)

(** [requests.get(url, timeout=5)] *)
Definition requests_get (url : string) (w : world float)
  : response * world float :=
  (http_reply env (gets w),
   {| gets := S (gets w); spawned := spawned w;
      trace := trace w ++ [EvGet url]; ledger := ledger w |}).

(** [time.sleep(d)] *)
Definition time_sleep (d : seconds float) (w : world float) : world float :=
  emit (EvSleep d) w.

(** Start a child process, wait for it and give its exit status. *)
Definition spawn (ev : event float) (w : world float) : Z * world float :=
  (exit_status env (spawned w),
   {| gets := gets w; spawned := S (spawned w);
      trace := trace w ++ [ev]; ledger := ledger w |}).

(** [subprocess.run(cmd, check=check, cwd=cwd)] *)
Definition subprocess_run (cmd : list string) (check : bool)
    (cwd : option string) : M (world float) Z :=
  fun w =>
    let (rc, w') := spawn (EvRun cmd cwd) w in
    if check && negb (rc =? 0)%Z then (Raise (CalledProcessError rc cmd), w')
    else (Ok rc, w').

(** [subprocess.run(cmd, check=False)], which cannot raise
    [CalledProcessError]. *)
Definition subprocess_run_unchecked (cmd : list string) (w : world float)
  : world float :=
  snd (spawn (EvRun cmd None) w).

(** [subprocess.check_output(cmd, cwd=cwd)] *)
Definition subprocess_check_output (cmd : list string) (cwd : option string)
  : M (world float) unit :=
  fun w =>
    let (rc, w') := spawn (EvCheckOutput cmd cwd) w in
    if negb (rc =? 0)%Z then (Raise (CalledProcessError rc cmd), w')
    else (Ok tt, w').

(** [open(file)] for reading. *)
Definition open_read (file : string) : M (world float) unit :=
  fun w =>
    if ratings_csv_exists env then (Ok tt, emit (EvRead file) w)
    else (Raise (FileNotFoundError file), w).

(** *** [run_cmd] *)

Definition run_cmd (cmd : list string) (dry_run : bool)
    (cwd : option string) (check : bool) : M (world float) Z :=
  if dry_run then ret 0%Z
  else subprocess_run cmd check cwd.

(** *** [append_release_log] *)

Definition append_release_log (log_path : string) (entry : release_entry)
    (w : world float) : world float :=
  let w1 := emit (EvMkdirParentOf log_path) w in
  {| gets := gets w1; spawned := spawned w1;
     trace := trace w1 ++ [EvAppend log_path entry];
     ledger := ledger w1 ++ [entry] |}.

(** *** [wait_for_health] *)

(** The loop [for attempt in range(1, attempts + 1)], with the number of
    iterations left. *)
Fixpoint health_loop (url : string) (interval : float) (left : nat)
    (w : world float) : bool * world float :=
  match left with
  | O => (false, w)
  | S left' =>
      let (resp, w1) := requests_get url w in
      match resp with
      | Reply code _ =>
          if (code =? 200)%Z then (true, w1)
          else health_loop url interval left' (time_sleep (SecFloat interval) w1)
      | RequestException _ =>
          health_loop url interval left' (time_sleep (SecFloat interval) w1)
      end
  end.

Definition wait_for_health (url : string) (attempts : Z) (interval : float)
    (dry_run : bool) (w : world float) : bool * world float :=
  if dry_run then (true, w)
  else health_loop url interval (Z.to_nat attempts) w.

(** *** [check_online_metric] *)

(** [resp.raise_for_status()] raises for the statuses 400 to 599. *)
Definition is_error_status (code : Z) : bool :=
  ((400 <=? code) && (code <? 600))%Z.

(** The loop over [resp.text.splitlines()]: the first line that starts
    with [metric_name] and has two parts decides; [float] raising
    [ValueError] lands in the handler, which returns [False]. *)
Fixpoint scan_lines (metric_name : string) (minimum : float)
    (lines : list string) : bool :=
  match lines with
  | [] => false
  | line :: rest =>
      if Text.startswith line metric_name then
        match Text.split line with
        | _ :: part1 :: _ =>
            match parse_float env part1 with
            | Some value => float_ge env value minimum
            | None => false
            end
        | _ => scan_lines metric_name minimum rest
        end
      else scan_lines metric_name minimum rest
  end.

Definition check_online_metric (url metric_name : string)
    (minimum : option float) (w : world float) : bool * world float :=
  match minimum with
  | None => (true, w)
  | Some min =>
      if Text.is_empty url then (true, w)
      else
        let (resp, w1) := requests_get url w in
        match resp with
        | RequestException _ => (false, w1)
        | Reply code text =>
            if is_error_status code then (false, w1)
            else (scan_lines metric_name min (Text.splitlines text), w1)
        end
  end.

(** *** [perform_staged_shift] *)

Definition switch_traffic (color : string) : list string :=
  ["bash"; "scripts/switch-traffic.sh"; color].

Definition install_equal_config : list (list string) :=
  [ ["docker"; "cp"; "nginx-equal.conf"; "recommender-loadbalancer:/tmp/nginx.conf"];
    ["docker"; "exec"; "recommender-loadbalancer";
     "sh"; "-c"; "cat /tmp/nginx.conf > /etc/nginx/nginx.conf"];
    ["docker"; "exec"; "recommender-loadbalancer"; "rm"; "-f"; "/tmp/nginx.conf"];
    ["docker"; "exec"; "recommender-loadbalancer"; "nginx"; "-s"; "reload"] ].

Definition metric_configured (args : Args float) : bool :=
  negb (Text.is_empty (online_metrics_url args))
  && match online_metric_min args with Some _ => true | None => false end.

(** The metric step of [guard]. *)
Definition metric_gate (args : Args float) (w : world float)
  : bool * world float :=
  if metric_configured args then
    check_online_metric (online_metrics_url args)
      (online_metric_name args) (online_metric_min args) w
  else (true, w).

(** The local function [guard] of [perform_staged_shift]. *)
Definition guard (args : Args float) (stage : string) (w : world float)
  : bool * world float :=
  let lb_health_url := lb_url args ++ health_path args in
  let w0 := emit (EvValidating stage) w in
  let (healthy, w1) :=
    wait_for_health lb_health_url (health_attempts args)
      (health_interval args) false w0 in
  if negb healthy then (false, w1)
  else
    let (good, w2) := metric_gate args w1 in
    if negb good then (false, w2) else (true, w2).

Definition phase : Type := string * option string * string.

Definition phase_name (p : phase) : string := fst (fst p).

Definition phases (target_color previous_color : string) : list phase :=
  [ ("old-primary", Some previous_color, "Keeping previous color primary (new = 25%)");
    ("equal", None, "Balancing traffic 50/50");
    ("new-primary", Some target_color, "Making new color primary (≈75%)");
    ("final", Some target_color, "Final check before optional 100% cutover") ].

(** What a phase does once its guard has passed.  A phase without color
    other than [equal] does not occur in [phases]. *)
Definition phase_action (p : phase) (w : world float) : world float :=
  let '(name, color, _) := p in
  if (name =? "equal")%string then
    fold_left (fun w' cmd => subprocess_run_unchecked cmd w')
      install_equal_config w
  else
    match color with
    | Some c => subprocess_run_unchecked (switch_traffic c) w
    | None => w
    end.

(** The loop [for name, color, desc in phases]; [false] is the early
    [return False]. *)
Fixpoint shift_loop (args : Args float) (previous_color : string)
    (ps : list phase) (w : world float) : bool * world float :=
  match ps with
  | [] => (true, w)
  | p :: rest =>
      let (ok, w1) := guard args (phase_name p) w in
      if negb ok then
        (false, subprocess_run_unchecked (switch_traffic previous_color) w1)
      else
        let w2 := phase_action p w1 in
        let w3 := time_sleep (SecInt (shift_wait args)) w2 in
        shift_loop args previous_color rest w3
  end.

Definition perform_staged_shift (target_color previous_color : string)
    (args : Args float) (dry_run : bool) (w : world float)
  : bool * world float :=
  if dry_run then (true, w)
  else
    let (ok, w1) :=
      shift_loop args previous_color (phases target_color previous_color) w in
    if negb ok then (false, w1)
    else if stop_old_on_success args then
      (true, subprocess_run_unchecked
               ["docker"; "stop"; "recommender-" ++ previous_color] w1)
    else (true, w1).

End Model.

Section Controller.

Context {float : Type}.
Variable env : environment float.

Local Open Scope py_scope.

(** The local variables of [main] that change: the dictionary
    [release_entry], next to the world. *)
Record locals : Type := {
  entry : release_entry;
  outside : world float
}.

Definition on_world {A : Type} (m : M (world float) A) : M locals A :=
  fun s =>
    let (r, w') := m (outside s) in
    (r, {| entry := entry s; outside := w' |}).

(** A call that cannot raise. *)
Definition total {A : Type} (f : world float -> A * world float)
  : M (world float) A :=
  fun w => let (a, w') := f w in (Ok a, w').

Definition effect (f : world float -> world float) : M (world float) unit :=
  fun w => (Ok tt, f w).

Definition set_image (v : string) (e : release_entry) : release_entry :=
  {| release_id := release_id e; timestamp := timestamp e;
     image := Some v; status := status e;
     metrics_file := metrics_file e; reason := reason e |}.

Definition set_status (v : string) (e : release_entry) : release_entry :=
  {| release_id := release_id e; timestamp := timestamp e;
     image := image e; status := v;
     metrics_file := metrics_file e; reason := reason e |}.

Definition set_reason (v : string) (e : release_entry) : release_entry :=
  {| release_id := release_id e; timestamp := timestamp e;
     image := image e; status := status e;
     metrics_file := metrics_file e; reason := Some v |}.

(** [release_entry[key] = v] *)
Definition assign (f : release_entry -> release_entry) : M locals unit :=
  fun s => (Ok tt, {| entry := f (entry s); outside := outside s |}).

(** [append_release_log(release_log_path, release_entry)] on the current
    contents of the dictionary. *)
Definition log_entry (log_path : string) : M locals unit :=
  fun s =>
    (Ok tt, {| entry := entry s;
               outside := append_release_log log_path (entry s) (outside s) |}).

(** *** [write_provenance] *)

Definition get_git_sha (repo_root : string) : M (world float) unit :=
  subprocess_check_output env ["git"; "rev-parse"; "HEAD"] (Some repo_root).

(** The dictionary [prov] is built in the order of its keys: the git
    revision, then the two readings of the ratings file (row count and
    digest); the file is written last. *)
Definition write_provenance (release_id ratings_csv repo_root : string)
  : M (world float) string :=
  let output_dir := Text.path_join repo_root "models" in
  effect (emit (EvMkdir output_dir)) ;;
  get_git_sha repo_root ;;
  open_read env ratings_csv ;;
  open_read env ratings_csv ;;
  let prov_path :=
    Text.path_join output_dir (release_id ++ "_provenance.json") in
  effect (emit (EvWrite prov_path)) ;;
  ret prov_path.

(** *** [main] *)

Definition docker_pipeline (script : string) (opts : list string)
  : list string :=
  ["docker"; "run"; "--rm"; "-v"; REPO_ROOT env ++ ":/app";
   "comp585-recommender:pipeline"; "python"; script] ++ opts.

Definition ingest_cmd (args : Args float) (ratings_csv : string)
  : list string :=
  [PYTHON_BIN env;
   Text.path_join (Text.path_join (REPO_ROOT env) "scripts")
     "extract_explicit_ratings.py";
   "--mode"; mode args;
   "--kafka-server"; kafka_server args;
   "--team-number"; Text.str_int (team_number args);
   "--output-file"; ratings_csv;
   "--max-rows"; Text.str_int 100000;
   "--append"].

Definition split_cmd (args : Args float) : list string :=
  docker_pipeline "scripts/split_train_test_set.py"
    ["--csv-path"; "data/explicit_ratings_from_kafka.csv";
     "--trainset-output"; "data/surprise_trainset.pkl";
     "--testset-output"; "data/surprise_testset.pkl";
     "--test-size"; str_float env (test_size args)].

Definition train_cmd : list string :=
  docker_pipeline "scripts/train_surprise_models.py"
    ["--model"; "svd";
     "--output_model_path"; "models/svd_model.pkl";
     "--trainset-path"; "data/surprise_trainset.pkl";
     "--testset-path"; "data/surprise_testset.pkl"].

Definition eval_cmd (args : Args float) : list string :=
  docker_pipeline "scripts/offline_evaluation.py"
    ["--model-path"; "models/svd_model.pkl";
     "--trainset-path"; "data/surprise_trainset.pkl";
     "--testset-path"; "data/surprise_testset.pkl";
     "--k"; Text.str_int (k args);
     "--threshold"; str_float env (threshold args);
     "--metrics-out"; metrics_out_path args;
     "--rmse-max"; str_float env (rmse_max args);
     "--precision-min"; str_float env (precision_min args);
     "--recall-min"; str_float env (recall_min args);
     "--hit-rate-min"; str_float env (hit_rate_min args);
     "--mrr-min"; str_float env (mrr_min args)].

Definition bg_cmd : list string :=
  ["docker"; "compose"; "build"; "recommender-blue"; "recommender-green"].

Definition target_color : string :=
  match BG_TARGET_COLOR env with Some c => c | None => "green" end.

Definition previous_color : string :=
  if (target_color =? "green")%string then "blue" else "green".

Definition deploy_cmd (release_id : string) : list string :=
  ["bash"; "scripts/deploy-blue-green.sh"; target_color; release_id].

Definition switch_cmd (args : Args float) : list string :=
  let initial_color :=
    if staged_shift args then previous_color else target_color in
  ["bash"; "scripts/switch-traffic.sh"; initial_color].

Definition abort_message : string :=
  "Staged traffic shift failed; reverted to previous version.".

(** The statements of the [try] block up to the first traffic switch. *)
Definition release_steps (args : Args float) (dry_run : bool)
    (release_id : string) : M locals unit :=
  let ratings_csv :=
    Text.path_join (Text.path_join (REPO_ROOT env) "data")
      "explicit_ratings_from_kafka.csv" in
  (if negb (skip_ingest args)
   then on_world (run_cmd env (ingest_cmd args ratings_csv) dry_run None true) ;; ret tt
   else ret tt) ;;
  on_world (run_cmd env (split_cmd args) dry_run None true) ;;
  on_world (run_cmd env train_cmd dry_run None true) ;;
  on_world (write_provenance release_id ratings_csv (REPO_ROOT env)) ;;
  on_world (run_cmd env (eval_cmd args) dry_run None true) ;;
  assign (set_image ("comp585-recommender:" ++ release_id)) ;;
  on_world (run_cmd env bg_cmd dry_run (Some (REPO_ROOT env)) true) ;;
  on_world (run_cmd env (deploy_cmd release_id) dry_run (Some (REPO_ROOT env)) true) ;;
  on_world (run_cmd env (switch_cmd args) dry_run (Some (REPO_ROOT env)) true) ;;
  ret tt.

(** The rest of the [try] block: the staged shift and the record of the
    result. *)
Definition shift_and_record (args : Args float) (dry_run : bool)
  : M locals unit :=
  (if staged_shift args then
     ok <- on_world (total (perform_staged_shift env target_color
                              previous_color args dry_run)) ;;
     if negb ok then
       assign (set_status "aborted") ;;
       assign (set_reason "Staged traffic shift failed") ;;
       log_entry (release_log_path args) ;;
       raise (SystemExit abort_message)
     else ret tt
   else ret tt) ;;
  assign (set_status "deployed") ;;
  log_entry (release_log_path args).

Definition try_block (args : Args float) (dry_run : bool)
    (release_id : string) : M locals unit :=
  release_steps args dry_run release_id ;;
  shift_and_record args dry_run.

Definition initial_entry (args : Args float) : release_entry :=
  {| release_id := utcnow_compact env;
     timestamp := utcnow_iso env;
     image := None;
     status := "pending";
     metrics_file := metrics_out_path args;
     reason := None |}.

Definition aborted_or_failed (s : string) : bool :=
  ((s =? "aborted") || (s =? "failed"))%string.

(** [main], after the arguments are parsed: the [try] block and its two
    handlers, each of which ends in [raise]. *)
Definition main (args : Args float) (w : world float)
  : outcome * world float :=
  let dry_run := negb (execute args) in
  let release_id := utcnow_compact env in
  let log_path := release_log_path args in
  match try_block args dry_run release_id
          {| entry := initial_entry args; outside := w |} with
  | (Ok _, s) => (Returned, outside s)
  | (Raise exc, s) =>
      if is_CalledProcessError exc then
        let e := set_reason
                   ("Command failed: " ++ Text.join " " (exn_cmd exc))
                   (set_status "failed" (entry s)) in
        (Raised exc, append_release_log log_path e (outside s))
      else if is_Exception exc then
        if negb (aborted_or_failed (status (entry s))) then
          let e := set_reason (str_exn exc)
                     (set_status "failed" (entry s)) in
          (Raised exc, append_release_log log_path e (outside s))
        else (Raised exc, outside s)
      else (Raised exc, outside s)
  end.

End Controller.

(** ** Vocabulary of the properties *)

Section Vocabulary.

Context {float : Type}.
Variable env : environment float.



(** The two tests a line passes before [check_online_metric] parses
    it. *)
Definition selects (metric_name line : string) : bool :=
  Text.startswith line metric_name
  && (2 <=? List.length (Text.split line))%nat.

(** The first part of the line is exactly the metric name. *)
Definition first_token_is (metric_name line : string) : bool :=
  match Text.split line with
  | t :: _ => (t =? metric_name)%string
  | [] => false
  end.

(** The first part of the line starts with the metric name. *)
Definition first_token_starts_with (metric_name line : string) : bool :=
  match Text.split line with
  | t :: _ => Text.startswith t metric_name
  | [] => false
  end.

Definition starts_with_space (line : string) : bool :=
  match line with
  | String c _ => Text.isspace c
  | EmptyString => false
  end.

Fixpoint has_space (s : string) : bool :=
  match s with
  | String c rest => Text.isspace c || has_space rest
  | EmptyString => false
  end.

(** The part that [check_online_metric] hands to [float]: the second
    part of the first selected line. *)
Definition metric_token (metric_name : string) (lines : list string)
  : option string :=
  match find (selects metric_name) lines with
  | Some line => Some (nth 1 (Text.split line) "")
  | None => None
  end.

(** What a metrics request yields: the value of the metric, or nothing
    when the request fails, the status is an error, no line is selected
    or the selected part is not a number. *)
Definition fetched_value (metric_name : string) (r : response)
  : option float :=
  match r with
  | RequestException _ => None
  | Reply code text =>
      if is_error_status code then None
      else
        match metric_token metric_name (Text.splitlines text) with
        | Some tok => parse_float env tok
        | None => None
        end
  end.

(** The characters of a line up to its first white space, and the rest
    from there on. *)
Fixpoint leading_token (line : string) : string :=
  match line with
  | EmptyString => EmptyString
  | String c rest =>
      if Text.isspace c then EmptyString
      else String c (leading_token rest)
  end.

Fixpoint after_token (line : string) : string :=
  match line with
  | EmptyString => EmptyString
  | String c rest => if Text.isspace c then line else after_token rest
  end.


(** The stages whose guard was evaluated, in order. *)
Fixpoint validated (t : list (event float)) : list string :=
  match t with
  | [] => []
  | EvValidating stage :: t' => stage :: validated t'
  | _ :: t' => validated t'
  end.

(** The commands started with [subprocess.run], in order. *)
Fixpoint commands_run (t : list (event float)) : list (list string) :=
  match t with
  | [] => []
  | EvRun cmd _ :: t' => cmd :: commands_run t'
  | _ :: t' => commands_run t'
  end.



Definition old_primary (previous : string) : phase :=
  ("old-primary", Some previous, "Keeping previous color primary (new = 25%)").

(** A phase whose guard passes: its action, then the soak. *)
Definition pass_phase (args : Args float) (p : phase) (w : world float)
  : world float :=
  time_sleep (SecInt (shift_wait args)) (phase_action env p w).


(** [w'] comes from [w] by adding events that all satisfy [P], the
    ledger being untouched. *)
Definition extends (P : event float -> bool) (w w' : world float) : Prop :=
  ledger w' = ledger w
  /\ exists evs, trace w' = (trace w ++ evs)%list /\ forallb P evs = true.

Definition is_probe (ev : event float) : bool :=
  match ev with EvGet _ | EvSleep _ => true | _ => false end.

Definition is_run (ev : event float) : bool :=
  match ev with EvRun _ _ => true | _ => false end.

Definition any_event (ev : event float) : bool := true.

Definition is_validating (ev : event float) : bool :=
  match ev with EvValidating _ => true | _ => false end.

Definition not_validating (ev : event float) : bool :=
  negb (is_validating ev).


(** The effects of [write_provenance]. *)
Definition is_bookkeeping (ev : event float) : bool :=
  match ev with
  | EvMkdir _ | EvCheckOutput _ _ | EvRead _ | EvWrite _ => true
  | _ => false
  end.

(** A computation on the world that only adds events satisfying [P],
    leaves the ledger alone and raises nothing but an [Exception]. *)
Definition safe {A : Type} (P : event float -> bool)
    (m : M (world float) A) : Prop :=
  forall w,
    match m w with
    | (Ok _, w') => extends P w w'
    | (Raise e, w') => is_Exception e = true /\ extends P w w'
    end.

(** The state of [main] while nothing has been decided: the ledger is
    as it was at [w0] and the entry is still pending. *)
Definition steady (P : event float -> bool) (w0 : world float)
    (s : locals) : Prop :=
  extends P w0 (outside s) /\ status (entry s) = "pending".

Definition keeps {A : Type} (P : event float -> bool)
    (m : M locals A) : Prop :=
  forall w0 s,
    steady P w0 s ->
    match m s with
    | (Ok _, s') => steady P w0 s'
    | (Raise e, s') => is_Exception e = true /\ steady P w0 s'
    end.


(** The events a computation added to the trace. *)
Definition added (w w' : world float) : list (event float) :=
  skipn (List.length (trace w)) (trace w').

End Vocabulary.

(** ** Decimal numbers, to run the model on sample inputs

    A decimal literal read exactly: enough of [float] for the sample
    metric values and thresholds, which are short decimals that compare
    as their binary roundings do. *)

Module Decimal.

Record dec : Type := { mantissa : Z; places : nat }.

Definition digit (c : ascii) : option Z :=
  let n := N_of_ascii c in
  if ((48 <=? n) && (n <=? 57))%N then Some (Z.of_N n - 48)%Z else None.

Fixpoint read (s : string) (dot : bool) (m : Z) (p digits : nat)
  : option (Z * nat * nat) :=
  match s with
  | EmptyString => Some (m, p, digits)
  | String c rest =>
      if (N_of_ascii c =? 46)%N then
        if dot then None else read rest true m p digits
      else
        match digit c with
        | Some d =>
            read rest dot (10 * m + d)%Z (if dot then S p else p) (S digits)
        | None => None
        end
  end.

Definition parse (s : string) : option dec :=
  let '(negative, body) :=
    match s with
    | String c rest =>
        if (N_of_ascii c =? 45)%N then (true, rest)
        else if (N_of_ascii c =? 43)%N then (false, rest)
        else (false, s)
    | EmptyString => (false, s)
    end in
  match read body false 0%Z 0 0 with
  | Some (m, p, S _) =>
      Some {| mantissa := if negative then (- m)%Z else m; places := p |}
  | _ => None
  end.

Definition ge (x y : dec) : bool :=
  (mantissa y * 10 ^ Z.of_nat (places x)
   <=? mantissa x * 10 ^ Z.of_nat (places y))%Z.

Definition str (x : dec) : string :=
  let scale := (10 ^ Z.of_nat (places x))%Z in
  let a := Z.abs (mantissa x) in
  (if (mantissa x <? 0)%Z then "-" else "")
  ++ Text.str_int (a / scale) ++ "."
  ++ (if (places x =? 0)%nat then "0"
      else substring 1 (places x) (Text.str_int (scale + a mod scale))).

Definition of_tenths (n : Z) : dec := {| mantissa := n; places := 1 |}.
Definition of_hundredths (n : Z) : dec := {| mantissa := n; places := 2 |}.

End Decimal.

(** ** Sample inputs *)

Module Sample.

Import Decimal.

Definition environ (replies : list response) (statuses : list Z)
    (csv : bool) : environment dec :=
  {| parse_float := parse;
     float_ge := ge;
     str_float := str;
     http_reply := fun n => nth n replies (RequestException "connection refused");
     exit_status := fun n => nth n statuses 0%Z;
     ratings_csv_exists := csv;
     utcnow_compact := "20251104120000";
     utcnow_iso := "2025-11-04T12:00:00.000000";
     BG_TARGET_COLOR := None;
     REPO_ROOT := "/repo";
     PYTHON_BIN := "/usr/bin/python3" |}.

(** The defaults of the argument parser, but for the flag [--execute]
    and the two settings of the metric check. *)
Definition configured (run : bool) (url : string) (minimum : option dec)
  : Args dec :=
  {| execute := run;
     mode := "stream";
     skip_ingest := false;
     kafka_server := "fall2025-comp585.cs.mcgill.ca:9092";
     team_number := 2;
     test_size := of_tenths 2;
     k := 20;
     threshold := of_tenths 35;
     rmse_max := of_tenths 10;
     precision_min := of_hundredths 5;
     recall_min := of_hundredths 2;
     hit_rate_min := of_tenths 1;
     mrr_min := of_hundredths 5;
     health_path := "/health";
     health_attempts := 10;
     health_interval := of_tenths 60;
     release_log := "/repo/reports/release_history.jsonl";
     metrics_out := "/repo/reports/latest_metrics.json";
     staged_shift := true;
     shift_wait := 3600;
     lb_url := "http://127.0.0.1:8082";
     online_metrics_url := url;
     online_metric_name := "online_positive_rating_rate";
     online_metric_min := minimum;
     stop_old_on_success := true;
     release_log_path := "/repo/reports/release_history.jsonl";
     metrics_out_path := "/repo/reports/latest_metrics.json" |}.

Definition defaults (run : bool) : Args dec :=
  configured run "http://127.0.0.1:9108/metrics" (Some (of_hundredths 35)).

Definition start : world dec :=
  {| gets := 0; spawned := 0; trace := []; ledger := [] |}.

Definition metric_body (value : string) : string :=
  "# HELP online_positive_rating_rate positive_ratings / movies_rated"
  ++ String "010" ""
  ++ "# TYPE online_positive_rating_rate gauge"
  ++ String "010" ""
  ++ "online_positive_rating_rate " ++ value ++ String "010" "".

(** Healthy throughout; the metric is 0.42 before the first stage and
    0.20 before the second. *)
Definition metric_drops : list response :=
  [ Reply 200 "ok"; Reply 200 (metric_body "0.42");
    Reply 200 "ok"; Reply 200 (metric_body "0.20") ].

(** Healthy and above the threshold throughout. *)
Definition all_good : list response :=
  [ Reply 200 "ok"; Reply 200 (metric_body "0.42");
    Reply 200 "ok"; Reply 200 (metric_body "0.42");
    Reply 200 "ok"; Reply 200 (metric_body "0.42");
    Reply 200 "ok"; Reply 200 (metric_body "0.42") ].

Definition longer_name_line : string :=
  "online_positive_rating_rate_total 0.9".

Definition longer_name_body : string :=
  longer_name_line ++ String "010" "".

Definition drops_env : environment dec := environ metric_drops [] true.

Definition good_env : environment dec := environ all_good [] true.





(** The stations of the run of [main] on [drops_env]. *)
Definition before_shift : locals (float := dec) :=
  snd (release_steps drops_env (defaults true) false
         (utcnow_compact drops_env)
         {| entry := initial_entry drops_env (defaults true);
            outside := start |}).

Definition passed_old_primary : world dec :=
  snd (guard drops_env (defaults true) "old-primary" (outside before_shift)).

Definition soaked_old_primary : world dec :=
  pass_phase drops_env (defaults true) (old_primary "blue")
    passed_old_primary.


Definition failed_equal : world dec :=
  snd (guard drops_env (defaults true) "equal" soaked_old_primary).

Definition reverted : world dec :=
  subprocess_run_unchecked drops_env (switch_traffic "blue") failed_equal.





End Sample.

(** ** The container helper *)

Section Containers.

Context {float : Type}.
Variable env : environment float.

Local Open Scope py_scope.

(** [stop_container]: nothing for an empty name, else a forced removal
    whose exit status is not checked. *)
Definition stop_container (name : string) (dry_run : bool)
  : M (world float) unit :=
  if Text.is_empty name then ret tt
  else run_cmd env ["docker"; "rm"; "-f"; name] dry_run None false ;; ret tt.

End Containers.

(** ** Observations on traces and states *)

Section Observations.

Context {float : Type}.
Variable env : environment float.






(** What the staged shift does: validation lines, requests, sleeps and
    commands started with [subprocess.run]. *)
Definition is_shift_event (ev : event float) : bool :=
  match ev with
  | EvValidating _ | EvGet _ | EvSleep _ | EvRun _ _ => true
  | _ => false
  end.

(** What a guard does after its validation line: requests, and sleeps
    of the health interval. *)
Definition is_poll_event (ev : event float) : bool :=
  match ev with
  | EvGet _ | EvSleep (SecFloat _) => true
  | _ => false
  end.


(** The event is the start of the child process [cmd]. *)
Definition started (cmd : list string) (ev : event float) : Prop :=
  match ev with
  | EvRun c _ | EvCheckOutput c _ => c = cmd
  | _ => False
  end.

(** A failed child was the last thing done: the status is not zero and
    the trace ends with the start of the command. *)
Definition failed_last (exc : exn) (w : world float) : Prop :=
  forall rc cmd,
    exc = CalledProcessError rc cmd ->
    rc <> 0%Z
    /\ exists t ev, trace w = (t ++ [ev])%list /\ started cmd ev.

(** A triple for the monad: from a state in [pre], a result lands in
    [post] and an exception in [exc]. *)
Definition triple {S A : Type} (pre : S -> Prop) (m : M S A)
    (post : A -> S -> Prop) (exc : exn -> S -> Prop) : Prop :=
  forall s,
    pre s ->
    match m s with
    | (Ok a, s') => post a s'
    | (Raise e, s') => exc e s'
    end.

(** The arguments with other values for the options [--release-log] and
    [--metrics-out]. *)
Definition set_unused_options (log out : string) (a : Args float)
  : Args float :=
  {| execute := execute a;
     mode := mode a;
     skip_ingest := skip_ingest a;
     kafka_server := kafka_server a;
     team_number := team_number a;
     test_size := test_size a;
     k := k a;
     threshold := threshold a;
     rmse_max := rmse_max a;
     precision_min := precision_min a;
     recall_min := recall_min a;
     hit_rate_min := hit_rate_min a;
     mrr_min := mrr_min a;
     health_path := health_path a;
     health_attempts := health_attempts a;
     health_interval := health_interval a;
     release_log := log;
     metrics_out := out;
     staged_shift := staged_shift a;
     shift_wait := shift_wait a;
     lb_url := lb_url a;
     online_metrics_url := online_metrics_url a;
     online_metric_name := online_metric_name a;
     online_metric_min := online_metric_min a;
     stop_old_on_success := stop_old_on_success a;
     release_log_path := release_log_path a;
     metrics_out_path := metrics_out_path a |}.

Definition image_tag : string :=
  ("comp585-recommender:" ++ utcnow_compact env)%string.

Definition ratings_csv_path : string :=
  Text.path_join (Text.path_join (REPO_ROOT env) "data")
    "explicit_ratings_from_kafka.csv".

Definition provenance_path : string :=
  Text.path_join (Text.path_join (REPO_ROOT env) "models")
    (utcnow_compact env ++ "_provenance.json")%string.

Definition git_rev_parse : list string := ["git"; "rev-parse"; "HEAD"].


(** How the release steps can fail, from the entry [e0]: with a failed
    command or the missing ratings file, the image being recorded only
    when a command after the evaluation failed. *)
Definition release_failure (e0 : release_entry) (exc : exn)
    (s : locals (float := float)) : Prop :=
  (entry s = e0
   \/ (entry s = set_image image_tag e0 /\ is_CalledProcessError exc = true))
  /\ failed_last exc (outside s)
  /\ (is_CalledProcessError exc = true
      \/ exc = FileNotFoundError ratings_csv_path).

Definition failed_entry (why : string) (e : release_entry) : release_entry :=
  set_reason why (set_status "failed" e).

Definition aborted_entry_of (e : release_entry) : release_entry :=
  set_reason "Staged traffic shift failed" (set_status "aborted" e).

(** The ways [main] can end, with the record [e] it writes on top of the
    world [w1]. *)
Inductive main_ending (args : Args float) (w : world float)
  : outcome -> release_entry -> world float -> Prop :=
| EndDeployed w1 :
    main_ending args w Returned
      (set_status "deployed" (set_image image_tag (initial_entry env args))) w1
| EndAborted w1 :
    main_ending args w (Raised (SystemExit abort_message))
      (aborted_entry_of (set_image image_tag (initial_entry env args))) w1
| EndCommandFailed rc cmd e1 w1 :
    e1 = initial_entry env args
    \/ e1 = set_image image_tag (initial_entry env args) ->
    failed_last (CalledProcessError rc cmd) w1 ->
    main_ending args w (Raised (CalledProcessError rc cmd))
      (failed_entry ("Command failed: " ++ Text.join " " cmd) e1) w1
| EndNoRatings w1 :
    main_ending args w (Raised (FileNotFoundError ratings_csv_path))
      (failed_entry (str_exn (FileNotFoundError ratings_csv_path))
         (initial_entry env args)) w1.

End Observations.

(** Sample inputs for the observations. *)

Module MoreSamples.

Import Decimal Sample.

(** The ingestion succeeds, the split exits with status 7. *)
Definition split_fails : environment dec := environ [] [0; 7]%Z true.





(** The split command of the sample run. *)
Definition sample_split_cmd : list string :=
  split_cmd split_fails (defaults true).

End MoreSamples.

(** * Properties *)

Open Scope list_scope.

Ltac inv H := inversion H; subst; clear H.

Section TraceFacts.

Context {float : Type}.




Lemma added_app (w w' : world float) (evs : list (event float)) :
  trace w' = trace w ++ evs -> added w w' = evs.
Proof.
  intros H. unfold added. rewrite H.
  rewrite skipn_app, skipn_all, Nat.sub_diag. reflexivity.
Qed.

Lemma extends_refl (P : event float -> bool) (w : world float) :
  extends P w w.
Proof.
  split; [reflexivity|]. exists []. rewrite app_nil_r. auto.
Qed.

Lemma extends_trans (P : event float -> bool) (w1 w2 w3 : world float) :
  extends P w1 w2 -> extends P w2 w3 -> extends P w1 w3.
Proof.
  intros [L1 (e1 & T1 & F1)] [L2 (e2 & T2 & F2)]. split.
  - congruence.
  - exists (e1 ++ e2). rewrite T2, T1, app_assoc, forallb_app, F1, F2.
    auto.
Qed.

Lemma extends_weaken (P Q : event float -> bool) (w w' : world float) :
  (forall ev, P ev = true -> Q ev = true) ->
  extends P w w' -> extends Q w w'.
Proof.
  intros PQ [L (evs & T & F)]. split; [exact L|].
  exists evs. split; [exact T|].
  rewrite forallb_forall in *. auto.
Qed.

Lemma extends_emit (P : event float -> bool) (ev : event float)
    (w : world float) :
  P ev = true -> extends P w (emit ev w).
Proof.
  intros H. split; [reflexivity|].
  exists [ev]. simpl. rewrite H. auto.
Qed.

End TraceFacts.

Section ProbeClient.

Context {float : Type}.
Variable env : environment float.

Lemma requests_get_extends (P : event float -> bool) url w :
  P (EvGet url) = true -> extends P w (snd (requests_get env url w)).
Proof.
  intros H. split; [reflexivity|].
  exists [EvGet url]. simpl. rewrite H. auto.
Qed.

Lemma spawn_extends (P : event float -> bool) ev w :
  P ev = true -> extends P w (snd (spawn env ev w)).
Proof.
  intros H. split; [reflexivity|].
  exists [ev]. simpl. rewrite H. auto.
Qed.

Lemma health_loop_extends url interval n w :
  extends is_probe w (snd (health_loop env url interval n w)).
Proof.
  revert w. induction n as [|n IH]; intros w; simpl.
  - apply extends_refl.
  - assert (G : extends is_probe w (snd (requests_get env url w)))
      by (apply requests_get_extends; reflexivity).
    assert (S : extends is_probe w
                  (time_sleep (SecFloat interval) (snd (requests_get env url w)))).
    { eapply extends_trans; [exact G|]. apply extends_emit. reflexivity. }
    destruct (http_reply env (gets w)) as [code text|msg].
    + destruct (code =? 200)%Z; [exact G|].
      eapply extends_trans; [exact S|apply IH].
    + eapply extends_trans; [exact S|apply IH].
Qed.

Lemma wait_for_health_extends url attempts interval dry_run w :
  extends is_probe w
    (snd (wait_for_health env url attempts interval dry_run w)).
Proof.
  unfold wait_for_health. destruct dry_run.
  - apply extends_refl.
  - apply health_loop_extends.
Qed.




End ProbeClient.

Section MetricCheck.

Context {float : Type}.
Variable env : environment float.

Lemma scan_lines_find metric_name (minimum : float) lines :
  scan_lines env metric_name minimum lines
  = match find (selects metric_name) lines with
    | Some line =>
        match parse_float env (nth 1 (Text.split line) "") with
        | Some value => float_ge env value minimum
        | None => false
        end
    | None => false
    end.
Proof.
  induction lines as [|line rest IH]; simpl; [reflexivity|].
  unfold selects at 1.
  destruct (Text.startswith line metric_name); simpl; [|exact IH].
  destruct (Text.split line) as [|t0 [|t1 ts]] eqn:Ep; simpl;
    rewrite ?Ep; simpl; auto.
Qed.




Lemma check_online_metric_extends url metric_name minimum w :
  extends is_probe w
    (snd (check_online_metric env url metric_name minimum w)).
Proof.
  unfold check_online_metric.
  destruct minimum as [m|]; [|apply extends_refl].
  destruct (Text.is_empty url); [apply extends_refl|].
  assert (G : extends is_probe w (snd (requests_get env url w)))
    by (apply requests_get_extends; reflexivity).
  simpl. destruct (http_reply env (gets w)) as [code text|msg]; [|exact G].
  destruct (is_error_status code); exact G.
Qed.

Lemma is_empty_true s : Text.is_empty s = true <-> s = EmptyString.
Proof. destruct s; simpl; split; congruence. Qed.



End MetricCheck.

Section LineSelection.

Context {float : Type}.
Variable env : environment float.

Lemma append_snoc (acc : string) (c : ascii) (s : string) :
  (Text.snoc acc c ++ s)%string = (acc ++ String c s)%string.
Proof.
  unfold Text.snoc. induction acc as [|a acc IH]; simpl;
    [reflexivity|rewrite IH; reflexivity].
Qed.

(** The first part that [split] yields is the leading token. *)
Lemma split_from_leading (line acc : string) :
  Text.split_from acc line
  = (if Text.is_empty (acc ++ leading_token line)%string then []
     else [(acc ++ leading_token line)%string])
    ++ Text.split_from "" (after_token line).
Proof.
  revert acc. induction line as [|c rest IH]; intros acc.
  - simpl. replace (acc ++ "")%string with acc; [rewrite app_nil_r; reflexivity|].
    induction acc as [|a acc IHa]; simpl; congruence.
  - simpl. destruct (Text.isspace c) eqn:Hc.
    + replace (acc ++ "")%string with acc.
      * simpl. rewrite Hc. destruct (Text.is_empty acc); reflexivity.
      * clear. induction acc as [|a acc IHa]; simpl; congruence.
    + rewrite IH, append_snoc. reflexivity.
Qed.

Lemma split_leading (c : ascii) (rest : string) :
  Text.isspace c = false ->
  exists parts,
    Text.split (String c rest) = leading_token (String c rest) :: parts.
Proof.
  intros Hc. unfold Text.split. rewrite split_from_leading.
  simpl. rewrite Hc. simpl. eauto.
Qed.

(** A name without white space starts a line exactly when it starts
    the leading token of the line. *)
Lemma prefix_leading_token (name line : string) :
  has_space name = false ->
  String.prefix name line = String.prefix name (leading_token line).
Proof.
  revert name. induction line as [|c rest IH]; intros name Hn.
  - reflexivity.
  - destruct name as [|a name'];
      [simpl; destruct (Text.isspace c); reflexivity|].
    simpl in Hn. apply orb_false_iff in Hn. destruct Hn as [Ha Hn].
    simpl. destruct (Text.isspace c) eqn:Hc.
    + destruct (ascii_dec a c) as [->|]; [congruence|reflexivity].
    + simpl. destruct (ascii_dec a c); [apply IH; exact Hn|reflexivity].
Qed.

Lemma selects_first_token (name line : string) :
  has_space name = false ->
  starts_with_space line = false ->
  selects name line
  = first_token_starts_with name line
    && (2 <=? List.length (Text.split line))%nat.
Proof.
  intros Hn Hl. unfold selects, first_token_starts_with, Text.startswith.
  destruct line as [|c rest].
  - simpl. apply andb_false_r.
  - simpl in Hl. destruct (split_leading c rest Hl) as (parts & ->).
    rewrite (prefix_leading_token name (String c rest) Hn). reflexivity.
Qed.

(** C6, amended.  [check_online_metric] decides on the first line that
    starts with the metric name, as a prefix of the line, and has two
    parts, and parses the second part of that line.  For a name without
    white space and a line without leading white space, that is a line
    of two parts whose first part starts with the metric name: a first
    part that merely has the name as a proper prefix is a match. *)
Theorem check_online_metric_selects_by_prefix
    (metric_name : string) (minimum : float) (lines : list string) :
  scan_lines env metric_name minimum lines
  = match find (selects metric_name) lines with
    | Some line =>
        match parse_float env (nth 1 (Text.split line) "") with
        | Some value => float_ge env value minimum
        | None => false
        end
    | None => false
    end
  /\ (forall line,
         selects metric_name line
         = Text.startswith line metric_name
           && (2 <=? List.length (Text.split line))%nat)
  /\ (forall line,
         has_space metric_name = false ->
         starts_with_space line = false ->
         selects metric_name line
         = first_token_starts_with metric_name line
           && (2 <=? List.length (Text.split line))%nat).
Proof.
  split; [apply scan_lines_find|].
  split; [reflexivity|].
  intros line. apply selects_first_token.
Qed.

End LineSelection.

Section StagedShift.

Context {float : Type}.
Variable env : environment float.
Variable args : Args float.




Lemma is_run_not_validating (ev : event float) :
  is_run ev = true -> not_validating ev = true.
Proof. destruct ev; cbv; congruence. Qed.


Lemma subprocess_run_unchecked_extends cmd (w : world float) :
  extends is_run w (subprocess_run_unchecked env cmd w).
Proof. apply spawn_extends. reflexivity. Qed.

Lemma metric_gate_extends (w : world float) :
  extends is_probe w (snd (metric_gate env args w)).
Proof.
  unfold metric_gate. destruct (metric_configured args).
  - apply check_online_metric_extends.
  - apply extends_refl.
Qed.

(** A guard prints its stage, then only probes. *)
Lemma guard_trace stage (w : world float) :
  ledger (snd (guard env args stage w)) = ledger w
  /\ exists evs,
       trace (snd (guard env args stage w))
       = trace w ++ EvValidating stage :: evs
       /\ forallb is_probe evs = true.
Proof.
  unfold guard.
  set (w0 := emit (EvValidating stage) w).
  pose proof (wait_for_health_extends env
                (lb_url args ++ health_path args)%string
                (health_attempts args) (health_interval args) false w0) as H.
  destruct (wait_for_health env _ _ _ false w0) as [healthy w1].
  simpl in H.
  assert (G : extends is_probe w0 (snd (if negb healthy then (false, w1)
                else let (good, w2) := metric_gate env args w1 in
                     if negb good then (false, w2) else (true, w2)))).
  { destruct healthy; simpl; [|exact H].
    pose proof (metric_gate_extends w1) as Hm.
    destruct (metric_gate env args w1) as [good w2]. simpl in Hm.
    eapply extends_trans; [exact H|].
    destruct good; exact Hm. }
  destruct G as [L (evs & T & F)]. split.
  - rewrite L. reflexivity.
  - exists evs. split; [|exact F].
    rewrite T. unfold w0. simpl. rewrite <- app_assoc. reflexivity.
Qed.

Lemma phase_action_extends p (w : world float) :
  extends is_run w (phase_action env p w).
Proof.
  destruct p as [[name color] desc]. unfold phase_action.
  destruct (name =? "equal")%string.
  - unfold install_equal_config. simpl.
    repeat (eapply extends_trans;
            [|apply subprocess_run_unchecked_extends]).
    apply extends_refl.
  - destruct color; [apply subprocess_run_unchecked_extends
                    |apply extends_refl].
Qed.

Lemma pass_phase_extends p (w : world float) :
  extends not_validating w (pass_phase env args p w).
Proof.
  unfold pass_phase. eapply extends_trans.
  - eapply extends_weaken; [|apply phase_action_extends].
    apply is_run_not_validating.
  - apply extends_emit. reflexivity.
Qed.

Lemma shift_loop_extends previous ps (w : world float) :
  extends any_event w (snd (shift_loop env args previous ps w)).
Proof.
  revert w. induction ps as [|p rest IH]; intros w; simpl.
  - apply extends_refl.
  - destruct (guard_trace (phase_name p) w) as (L & evs & T & F).
    destruct (guard env args (phase_name p) w) as [ok w1]. simpl in *.
    assert (G : extends any_event w w1).
    { split; [exact L|]. exists (EvValidating (phase_name p) :: evs).
      split; [exact T|]. apply forallb_forall. reflexivity. }
    destruct ok; simpl.
    + eapply extends_trans; [exact G|].
      eapply extends_trans; [|apply IH].
      eapply extends_weaken; [|apply pass_phase_extends]. reflexivity.
    + eapply extends_trans; [exact G|].
      eapply extends_weaken; [|apply subprocess_run_unchecked_extends].
      reflexivity.
Qed.

Lemma perform_staged_shift_extends target previous dry_run (w : world float) :
  extends any_event w
    (snd (perform_staged_shift env target previous args dry_run w)).
Proof.
  unfold perform_staged_shift. destruct dry_run; [apply extends_refl|].
  pose proof (shift_loop_extends previous (phases target previous) w) as H.
  destruct (shift_loop env args previous (phases target previous) w)
    as [ok w1].
  simpl in H. destruct ok; simpl; [|exact H].
  destruct (stop_old_on_success args); [|exact H].
  eapply extends_trans; [exact H|].
  eapply extends_weaken; [|apply subprocess_run_unchecked_extends].
  reflexivity.
Qed.








(** C5, amended.  A dry run of the staged shift skips the loop over the
    phases: it answers true at once and does nothing, whatever the
    arguments. *)
Theorem dry_run_skips_staged_shift
    (target previous : string) (w : world float) :
  perform_staged_shift env target previous args true w = (true, w).
Proof. reflexivity. Qed.

End StagedShift.

Section ControllerFacts.

Context {float : Type}.
Variable env : environment float.
Variable P : event float -> bool.

Local Open Scope py_scope.

Lemma safe_ret {A : Type} (a : A) : safe P (ret a).
Proof. intros w. apply extends_refl. Qed.

Lemma safe_bind {A B : Type} (m : M (world float) A)
    (f : A -> M (world float) B) :
  safe P m -> (forall a, safe P (f a)) -> safe P (bind m f).
Proof.
  intros Hm Hf w. unfold bind. specialize (Hm w).
  destruct (m w) as [[a|e] w1]; [|exact Hm].
  specialize (Hf a w1). destruct (f a w1) as [[b|e] w2].
  - eapply extends_trans; eauto.
  - destruct Hf as [He Hx]. split; [exact He|].
    eapply extends_trans; eauto.
Qed.

Lemma safe_effect_emit (ev : event float) :
  P ev = true -> safe P (effect (emit ev)).
Proof. intros H w. apply extends_emit. exact H. Qed.

Lemma safe_subprocess_run cmd check cwd :
  P (EvRun cmd cwd) = true -> safe P (subprocess_run env cmd check cwd).
Proof.
  intros H w. unfold subprocess_run.
  pose proof (spawn_extends env P (EvRun cmd cwd) w H) as X.
  destruct (spawn env (EvRun cmd cwd) w) as [rc w']. simpl in X.
  destruct (check && negb (rc =? 0)%Z); auto.
Qed.

Lemma safe_run_cmd cmd dry_run cwd check :
  (dry_run = false -> P (EvRun cmd cwd) = true) ->
  safe P (run_cmd env cmd dry_run cwd check).
Proof.
  intros H. unfold run_cmd. destruct dry_run.
  - apply safe_ret.
  - apply safe_subprocess_run. auto.
Qed.

Lemma safe_check_output cmd cwd :
  P (EvCheckOutput cmd cwd) = true ->
  safe P (subprocess_check_output env cmd cwd).
Proof.
  intros H w. unfold subprocess_check_output.
  pose proof (spawn_extends env P (EvCheckOutput cmd cwd) w H) as X.
  destruct (spawn env (EvCheckOutput cmd cwd) w) as [rc w']. simpl in X.
  destruct (negb (rc =? 0)%Z); auto.
Qed.

Lemma safe_open_read file :
  P (EvRead file) = true -> safe P (open_read env file).
Proof.
  intros H w. unfold open_read. destruct (ratings_csv_exists env).
  - apply extends_emit. exact H.
  - split; [reflexivity|apply extends_refl].
Qed.

Lemma safe_write_provenance release_id ratings_csv repo_root :
  (forall ev, is_bookkeeping ev = true -> P ev = true) ->
  safe P (write_provenance env release_id ratings_csv repo_root).
Proof.
  intros H. unfold write_provenance, get_git_sha.
  repeat (apply safe_bind; [|intros _]);
    try apply safe_ret;
    try (apply safe_effect_emit; apply H; reflexivity);
    try (apply safe_check_output; apply H; reflexivity);
    try (apply safe_open_read; apply H; reflexivity).
Qed.

Lemma keeps_ret {A : Type} (a : A) : keeps (A:=A) P (ret a).
Proof. intros w0 s H. exact H. Qed.

Lemma keeps_bind {A B : Type} (m : M (locals (float:=float)) A)
    (f : A -> M locals B) :
  keeps P m -> (forall a, keeps P (f a)) -> keeps P (bind m f).
Proof.
  intros Hm Hf w0 s Hs. unfold bind. specialize (Hm w0 s Hs).
  destruct (m s) as [[a|e] s1]; [|exact Hm].
  apply Hf. exact Hm.
Qed.

Lemma keeps_on_world {A : Type} (m : M (world float) A) :
  safe P m -> keeps P (on_world m).
Proof.
  intros Hm w0 s [Hx Hp]. unfold on_world. specialize (Hm (outside s)).
  destruct (m (outside s)) as [[a|e] w1]; simpl.
  - split; [eapply extends_trans; eauto|exact Hp].
  - destruct Hm as [He Hm]. split; [exact He|].
    split; [eapply extends_trans; eauto|exact Hp].
Qed.

Lemma keeps_set_image v : keeps P (assign (set_image v)).
Proof. intros w0 s H. exact H. Qed.

Lemma keeps_release_steps (args : Args float) dry_run release_id :
  (forall ev, is_bookkeeping ev = true -> P ev = true) ->
  (dry_run = false -> forall ev, P ev = true) ->
  keeps P (release_steps env args dry_run release_id).
Proof.
  intros Hb Hr. unfold release_steps.
  repeat (apply keeps_bind; [|intros _]);
    try apply keeps_ret; try apply keeps_set_image;
    try (apply keeps_on_world; apply safe_run_cmd; auto);
    try (apply keeps_on_world; apply safe_write_provenance; exact Hb).
  destruct (negb (skip_ingest args)); [|apply keeps_ret].
  apply keeps_bind; [|intros _; apply keeps_ret].
  apply keeps_on_world. apply safe_run_cmd. auto.
Qed.





End ControllerFacts.

Section ControllerProperties.

Context {float : Type}.
Variable env : environment float.
Variable args : Args float.

Local Abbreviation s0 w :=
  {| entry := initial_entry env args; outside := w |}.

Local Abbreviation dry_run := (negb (execute args)).


Lemma release_steps_ledger (w : world float) r (s1 : locals) :
  release_steps env args dry_run (utcnow_compact env) (s0 w) = (r, s1) ->
  ledger (outside s1) = ledger w.
Proof.
  intros H.
  assert (K : steady any_event w (s0 w))
    by (split; [apply extends_refl|reflexivity]).
  apply (keeps_release_steps env any_event args dry_run (utcnow_compact env))
    in K; try reflexivity.
  rewrite H in K. destruct r; [|destruct K as [_ K]];
    destruct K as [[L _] _]; exact L.
Qed.

(** The abort path: the aborted record, then the [SystemExit], which
    neither handler catches. *)
Lemma main_abort (w : world float) (s1 : locals) (w2 : world float) :
  release_steps env args dry_run (utcnow_compact env) (s0 w) = (Ok tt, s1) ->
  staged_shift args = true ->
  perform_staged_shift env (target_color env) (previous_color env) args
    dry_run (outside s1) = (false, w2) ->
  main env args w
  = (Raised (SystemExit abort_message),
     append_release_log (release_log_path args)
       (set_reason "Staged traffic shift failed"
          (set_status "aborted" (entry s1))) w2).
Proof.
  intros Hsteps Hss Hshift. unfold main, try_block.
  unfold bind at 1. rewrite Hsteps.
  unfold shift_and_record. rewrite Hss.
  unfold bind at 1. unfold bind at 1. unfold on_world, total.
  rewrite Hshift. reflexivity.
Qed.



(** C10. On the abort path the aborted record is appended and
    [SystemExit] is raised; it is neither a [CalledProcessError] nor an
    [Exception], so no handler runs and no second record is written:
    the attempt leaves exactly one record and a non-zero exit status. *)
Theorem abort_exits_with_one_record
    (w : world float) (s1 : locals) (w2 : world float) :
  release_steps env args dry_run (utcnow_compact env) (s0 w) = (Ok tt, s1) ->
  staged_shift args = true ->
  perform_staged_shift env (target_color env) (previous_color env) args
    dry_run (outside s1) = (false, w2) ->
  let e := set_reason "Staged traffic shift failed"
             (set_status "aborted" (entry s1)) in
  main env args w
  = (Raised (SystemExit abort_message),
     append_release_log (release_log_path args) e w2)
  /\ is_CalledProcessError (SystemExit abort_message) = false
  /\ is_Exception (SystemExit abort_message) = false
  /\ ledger (snd (main env args w)) = ledger w ++ [e]
  /\ status e = "aborted"
  /\ process_exit_status (fst (main env args w)) <> 0%Z.
Proof.
  intros Hsteps Hss Hshift e.
  rewrite (main_abort w s1 w2 Hsteps Hss Hshift).
  repeat split; try discriminate.
  simpl.
  pose proof (perform_staged_shift_extends env args (target_color env)
                (previous_color env) dry_run (outside s1)) as [L _].
  rewrite Hshift in L. simpl in L.
  rewrite L, (release_steps_ledger w _ s1 Hsteps). reflexivity.
Qed.


End ControllerProperties.

(** * The properties on the sample inputs *)

Section Samples.

Import Decimal Sample.

(** The text primitives on small inputs. *)
Example splitlines_sample :
  Text.splitlines
    ("a" ++ String "010" (String "013" (String "010" "b c"))
     ++ String "010" "")%string
  = ["a"; ""; "b c"]%string.
Proof. reflexivity. Qed.

Example split_sample :
  Text.split "  m  0.42 1700000000000 "
  = ["m"; "0.42"; "1700000000000"]%string.
Proof. reflexivity. Qed.

Example metric_value_sample :
  fetched_value drops_env "online_positive_rating_rate"
    (Reply 200 "online_positive_rating_rate 0.42 1700000000000")
  = Some (of_hundredths 42).
Proof. reflexivity. Qed.

(** The full run with every guard passing: the four phases in order,
    the record deployed, the previous container stopped once. *)
Example all_guards_pass :
  let r := main good_env (defaults true) start in
  fst r = Returned
  /\ validated (trace (snd r))
     = ["old-primary"; "equal"; "new-primary"; "final"]%string
  /\ map status (ledger (snd r)) = ["deployed"%string]
  /\ count_occ (list_eq_dec string_dec) (commands_run (trace (snd r)))
       ["docker"; "stop"; "recommender-blue"]%string = 1.
Proof. vm_compute. repeat split. Qed.



(** C6: a line whose first part is a longer name is selected, and its
    value is taken for the metric. *)
Lemma longer_metric_name_is_selected :
  selects "online_positive_rating_rate" longer_name_line = true
  /\ first_token_is "online_positive_rating_rate" longer_name_line = false
  /\ ~ (selects "online_positive_rating_rate" longer_name_line = true
        <-> first_token_is "online_positive_rating_rate" longer_name_line
            = true)
  /\ check_online_metric (environ [Reply 200 longer_name_body] [] true)
       "http://127.0.0.1:9108/metrics" "online_positive_rating_rate"
       (Some (of_hundredths 35)) start
     = (true, {| gets := 1; spawned := 0;
                 trace := [EvGet "http://127.0.0.1:9108/metrics"];
                 ledger := [] |}).
Proof.
  split; [reflexivity|]. split; [reflexivity|]. split; [|reflexivity].
  intros [H _]. specialize (H eq_refl). discriminate H.
Qed.

Lemma check_online_metric_selects_by_prefix_witness :
  selects "online_positive_rating_rate" longer_name_line
  = first_token_starts_with "online_positive_rating_rate" longer_name_line
    && (2 <=? List.length (Text.split longer_name_line))%nat.
Proof.
  apply (proj2 (proj2 (check_online_metric_selects_by_prefix drops_env
                         "online_positive_rating_rate" (of_hundredths 35) [])));
    reflexivity.
Defined.




(** C5: the dry run validates no phase, the real run all four. *)
Lemma dry_run_visits_no_phase :
  validated (added start
               (snd (perform_staged_shift good_env "green" "blue"
                       (defaults false) true start))) = []
  /\ validated (added start
                  (snd (perform_staged_shift good_env "green" "blue"
                          (defaults true) false start)))
     = ["old-primary"; "equal"; "new-primary"; "final"]%string
  /\ validated (added start
                  (snd (perform_staged_shift good_env "green" "blue"
                          (defaults false) true start)))
     <> ["old-primary"; "equal"; "new-primary"; "final"]%string.
Proof.
  split; [vm_compute; reflexivity|]. split; [vm_compute; reflexivity|].
  vm_compute. discriminate.
Qed.





(** C10 on the same run. *)
Lemma abort_exits_with_one_record_witness :
  let e := set_reason "Staged traffic shift failed"
             (set_status "aborted" (entry before_shift)) in
  main drops_env (defaults true) start
  = (Raised (SystemExit abort_message),
     append_release_log (release_log_path (defaults true)) e reverted)
  /\ is_CalledProcessError (SystemExit abort_message) = false
  /\ is_Exception (SystemExit abort_message) = false
  /\ ledger (snd (main drops_env (defaults true) start)) = ledger start ++ [e]
  /\ status e = "aborted"%string
  /\ process_exit_status (fst (main drops_env (defaults true) start)) <> 0%Z.
Proof.
  apply (abort_exits_with_one_record drops_env (defaults true) start
           before_shift reverted);
    vm_compute; reflexivity.
Defined.

End Samples.

(** * Further properties of the script *)

Section HealthPoll.

Context {float : Type}.
Variable env : environment float.








End HealthPoll.

Section ShiftFacts.

Context {float : Type}.
Variable env : environment float.
Variable args : Args float.


Lemma health_loop_extends_poll url interval n (w : world float) :
  extends is_poll_event w (snd (health_loop env url interval n w)).
Proof.
  revert w. induction n as [|n IH]; intros w; simpl.
  - apply extends_refl.
  - assert (G : extends is_poll_event w (snd (requests_get env url w)))
      by (apply requests_get_extends; reflexivity).
    assert (S : extends is_poll_event w
                  (time_sleep (SecFloat interval) (snd (requests_get env url w)))).
    { eapply extends_trans; [exact G|]. apply extends_emit. reflexivity. }
    destruct (http_reply env (gets w)) as [code text|msg].
    + destruct (code =? 200)%Z; [exact G|].
      eapply extends_trans; [exact S|apply IH].
    + eapply extends_trans; [exact S|apply IH].
Qed.

Lemma metric_gate_extends_poll (w : world float) :
  extends is_poll_event w (snd (metric_gate env args w)).
Proof.
  unfold metric_gate. destruct (metric_configured args);
    [|apply extends_refl].
  unfold check_online_metric.
  destruct (online_metric_min args) as [m|]; [|apply extends_refl].
  destruct (Text.is_empty (online_metrics_url args)); [apply extends_refl|].
  assert (G : extends is_poll_event w
                (snd (requests_get env (online_metrics_url args) w)))
    by (apply requests_get_extends; reflexivity).
  simpl. destruct (http_reply env (gets w)) as [code text|msg]; [|exact G].
  destruct (is_error_status code); exact G.
Qed.

(** A guard prints its stage, then only polls. *)
Lemma guard_polls stage (w : world float) :
  ledger (snd (guard env args stage w)) = ledger w
  /\ exists evs,
       trace (snd (guard env args stage w))
       = trace w ++ EvValidating stage :: evs
       /\ forallb is_poll_event evs = true.
Proof.
  unfold guard.
  set (w0 := emit (EvValidating stage) w).
  assert (H : extends is_poll_event w0
                (snd (wait_for_health env
                        (lb_url args ++ health_path args)%string
                        (health_attempts args) (health_interval args) false w0)))
    by apply health_loop_extends_poll.
  destruct (wait_for_health env _ _ _ false w0) as [healthy w1].
  simpl in H.
  assert (G : extends is_poll_event w0
                (snd (if negb healthy then (false, w1)
                      else let (good, w2) := metric_gate env args w1 in
                           if negb good then (false, w2) else (true, w2)))).
  { destruct healthy; simpl; [|exact H].
    pose proof (metric_gate_extends_poll w1) as Hm.
    destruct (metric_gate env args w1) as [good w2]. simpl in Hm.
    eapply extends_trans; [exact H|].
    destruct good; exact Hm. }
  destruct G as [L (evs & T & F)]. split.
  - rewrite L. reflexivity.
  - exists evs. split; [|exact F].
    rewrite T. unfold w0. simpl. rewrite <- app_assoc. reflexivity.
Qed.









Lemma is_poll_shift_event (ev : event float) :
  is_poll_event ev = true -> is_shift_event ev = true.
Proof. destruct ev as [| |[x|n]| | | | | | |]; cbv; congruence. Qed.

Lemma is_run_shift_event (ev : event float) :
  is_run ev = true -> is_shift_event ev = true.
Proof. destruct ev; cbv; congruence. Qed.

Lemma shift_loop_shift_events previous ps (w : world float) :
  extends is_shift_event w (snd (shift_loop env args previous ps w)).
Proof.
  revert w. induction ps as [|p rest IH]; intros w; simpl.
  - apply extends_refl.
  - destruct (guard_polls (phase_name p) w) as (L & evs & T & F).
    destruct (guard env args (phase_name p) w) as [ok w1]. simpl in *.
    assert (G : extends is_shift_event w w1).
    { split; [exact L|]. exists (EvValidating (phase_name p) :: evs).
      split; [exact T|]. simpl. apply forallb_forall. intros ev Hin.
      apply is_poll_shift_event. rewrite forallb_forall in F. auto. }
    destruct ok; simpl.
    + eapply extends_trans; [exact G|].
      eapply extends_trans; [|apply IH].
      eapply extends_trans.
      * eapply extends_weaken; [|apply phase_action_extends].
        apply is_run_shift_event.
      * apply extends_emit. reflexivity.
    + eapply extends_trans; [exact G|].
      eapply extends_weaken; [|apply subprocess_run_unchecked_extends].
      apply is_run_shift_event.
Qed.

(** The staged shift never touches a file: whatever the replies and the
    exit statuses, it leaves the release ledger as it is and adds to the
    trace nothing but validation lines, requests, sleeps and commands
    started with [subprocess.run]. *)
Theorem staged_shift_only_probes_and_commands
    (target previous : string) (dry_run : bool) (w : world float) :
  let r := perform_staged_shift env target previous args dry_run w in
  ledger (snd r) = ledger w
  /\ trace (snd r) = trace w ++ added w (snd r)
  /\ forallb is_shift_event (added w (snd r)) = true.
Proof.
  intros r.
  assert (E : extends is_shift_event w (snd r)).
  { unfold r, perform_staged_shift. destruct dry_run; [apply extends_refl|].
    pose proof (shift_loop_shift_events previous (phases target previous) w)
      as H.
    destruct (shift_loop env args previous (phases target previous) w)
      as [ok w1].
    simpl in H. destruct ok; simpl; [|exact H].
    destruct (stop_old_on_success args); [|exact H].
    eapply extends_trans; [exact H|].
    eapply extends_weaken; [|apply subprocess_run_unchecked_extends].
    apply is_run_shift_event. }
  destruct E as (L & evs & T & F).
  rewrite (added_app _ _ _ T). auto.
Qed.


End ShiftFacts.

Section Triples.

Context {S : Type}.

Lemma triple_ret {A : Type} (pre : S -> Prop) (a : A)
    (post : A -> S -> Prop) (exc : exn -> S -> Prop) :
  (forall s, pre s -> post a s) -> triple pre (ret a) post exc.
Proof. intros H s Hs. apply H. exact Hs. Qed.

Lemma triple_bind {A B : Type} (pre : S -> Prop) (m : M S A)
    (mid : A -> S -> Prop) (f : A -> M S B)
    (post : B -> S -> Prop) (exc : exn -> S -> Prop) :
  triple pre m mid exc ->
  (forall a, triple (mid a) (f a) post exc) ->
  triple pre (bind m f) post exc.
Proof.
  intros Hm Hf s Hs. unfold bind. specialize (Hm s Hs).
  destruct (m s) as [[a|e] s1]; [|exact Hm].
  apply Hf. exact Hm.
Qed.

Lemma triple_weaken {A : Type} (pre pre' : S -> Prop) (m : M S A)
    (post post' : A -> S -> Prop) (exc exc' : exn -> S -> Prop) :
  (forall s, pre' s -> pre s) ->
  (forall a s, post a s -> post' a s) ->
  (forall e s, exc e s -> exc' e s) ->
  triple pre m post exc -> triple pre' m post' exc'.
Proof.
  intros Hp Hq He H s Hs. specialize (H s (Hp s Hs)).
  destruct (m s) as [[a|e] s1]; auto.
Qed.

End Triples.

Section Commands.

Context {float : Type}.
Variable env : environment float.

Local Open Scope py_scope.

(** [run_cmd] raises nothing but [CalledProcessError], and then the
    failed command is the last thing in the trace. *)
Lemma run_cmd_raises cmd dry_run cwd check (w : world float) :
  match run_cmd env cmd dry_run cwd check w with
  | (Ok _, _) => True
  | (Raise exc, w') =>
      is_CalledProcessError exc = true /\ failed_last exc w'
  end.
Proof.
  unfold run_cmd. destruct dry_run; [exact I|].
  unfold subprocess_run, spawn.
  destruct (check && negb (exit_status env (spawned w) =? 0)%Z) eqn:C;
    [|exact I].
  split; [reflexivity|]. intros rc cmd' E. inv E.
  apply andb_true_iff in C. destruct C as [_ C].
  split.
  - intros Z0. rewrite Z0 in C. discriminate.
  - exists (trace w), (EvRun cmd' cwd). split; reflexivity.
Qed.

(** [write_provenance] step by step: the directory, the git revision,
    the two readings of the ratings file, the file. *)
Lemma write_provenance_cases release_id ratings_csv repo_root
    (w : world float) :
  let models := Text.path_join repo_root "models" in
  let path := Text.path_join models (release_id ++ "_provenance.json")%string in
  let rc := exit_status env (spawned w) in
  let made := [EvMkdir models;
               EvCheckOutput git_rev_parse (Some repo_root)] in
  exists w',
    ledger w' = ledger w
    /\ ((rc <> 0%Z
         /\ write_provenance env release_id ratings_csv repo_root w
            = (Raise (CalledProcessError rc git_rev_parse), w')
         /\ trace w' = trace w ++ made)
        \/ (rc = 0%Z /\ ratings_csv_exists env = false
            /\ write_provenance env release_id ratings_csv repo_root w
               = (Raise (FileNotFoundError ratings_csv), w')
            /\ trace w' = trace w ++ made)
        \/ (rc = 0%Z /\ ratings_csv_exists env = true
            /\ write_provenance env release_id ratings_csv repo_root w
               = (Ok path, w')
            /\ trace w' = trace w ++ made
                          ++ [EvRead ratings_csv; EvRead ratings_csv;
                              EvWrite path])).
Proof.
  intros models path rc made.
  unfold write_provenance, get_git_sha, subprocess_check_output, open_read,
    effect, bind, ret, spawn.
  simpl. fold rc.
  destruct (rc =? 0)%Z eqn:C; simpl.
  - apply Z.eqb_eq in C.
    destruct (ratings_csv_exists env) eqn:X; simpl.
    + eexists. split; [|right; right; repeat split; try eassumption].
      * reflexivity.
      * simpl. rewrite <- !app_assoc. reflexivity.
    + eexists. split; [|right; left; repeat split; try eassumption].
      * reflexivity.
      * simpl. rewrite <- !app_assoc. reflexivity.
  - apply Z.eqb_neq in C.
    eexists. split; [|left; repeat split; try eassumption].
    + reflexivity.
    + simpl. rewrite <- !app_assoc. reflexivity.
Qed.

Lemma write_provenance_raises release_id ratings_csv repo_root
    (w : world float) :
  match write_provenance env release_id ratings_csv repo_root w with
  | (Ok _, _) => True
  | (Raise exc, w') =>
      failed_last exc w'
      /\ (is_CalledProcessError exc = true
          \/ exc = FileNotFoundError ratings_csv)
  end.
Proof.
  destruct (write_provenance_cases release_id ratings_csv repo_root w)
    as (w' & _ & [(C & E & T)|[(C & X & E & T)|(C & X & E & T)]]);
    rewrite E; [| |exact I].
  - split; [|left; reflexivity].
    intros rc cmd H. inv H. split; [exact C|].
    exists (trace w ++ [EvMkdir (Text.path_join repo_root "models")]),
      (EvCheckOutput git_rev_parse (Some repo_root)).
    split; [rewrite T, <- app_assoc; reflexivity|reflexivity].
  - split; [|right; reflexivity]. intros rc cmd H. discriminate.
Qed.


(** [stop_container] never raises, whatever the exit status of the
    removal; it starts exactly one command, [docker rm -f name], unless
    the name is empty or the run is dry, when it does nothing at all. *)
Theorem stop_container_best_effort (name : string) (dry_run : bool)
    (w : world float) :
  exists w',
    stop_container env name dry_run w = (Ok tt, w')
    /\ ledger w' = ledger w
    /\ trace w'
       = trace w ++ (if Text.is_empty name || dry_run then []
                     else [EvRun ["docker"; "rm"; "-f"; name]%string None]).
Proof.
  unfold stop_container. destruct (Text.is_empty name); simpl.
  - exists w. rewrite app_nil_r. auto.
  - unfold run_cmd, bind. destruct dry_run; simpl.
    + exists w. rewrite app_nil_r. auto.
    + eexists. split; [reflexivity|]. split; reflexivity.
Qed.


End Commands.

Section ControllerCases.

Context {float : Type}.
Variable env : environment float.
Variable args : Args float.

Local Open Scope py_scope.

Local Abbreviation e0 := (initial_entry env args).
Local Abbreviation tagged := (set_image (image_tag env) (initial_entry env args)).
Local Abbreviation E := (release_failure env (initial_entry env args)).

Lemma step_before cmd dry_run cwd :
  triple (fun s => entry s = e0)
    (on_world (run_cmd env cmd dry_run cwd true))
    (fun _ s => entry s = e0) E.
Proof.
  intros s Hs. unfold on_world.
  pose proof (run_cmd_raises env cmd dry_run cwd true (outside s)) as R.
  destruct (run_cmd env cmd dry_run cwd true (outside s)) as [[a|exc] w'];
    simpl; [exact Hs|].
  destruct R as [C F]. split; [left; exact Hs|]. split; [exact F|left; exact C].
Qed.

Lemma step_after cmd dry_run cwd :
  triple (fun s => entry s = tagged)
    (on_world (run_cmd env cmd dry_run cwd true))
    (fun _ s => entry s = tagged) E.
Proof.
  intros s Hs. unfold on_world.
  pose proof (run_cmd_raises env cmd dry_run cwd true (outside s)) as R.
  destruct (run_cmd env cmd dry_run cwd true (outside s)) as [[a|exc] w'];
    simpl; [exact Hs|].
  destruct R as [C F]. split; [right; split; [exact Hs|exact C]|].
  split; [exact F|left; exact C].
Qed.

Lemma step_provenance :
  triple (fun s => entry s = e0)
    (on_world (write_provenance env (utcnow_compact env)
                 (ratings_csv_path env) (REPO_ROOT env)))
    (fun _ s => entry s = e0) E.
Proof.
  intros s Hs. unfold on_world.
  pose proof (write_provenance_raises env (utcnow_compact env)
                (ratings_csv_path env) (REPO_ROOT env) (outside s)) as R.
  destruct (write_provenance env _ _ _ (outside s)) as [[a|exc] w'];
    simpl; [exact Hs|].
  destruct R as [F C]. split; [left; exact Hs|]. split; [exact F|exact C].
Qed.

Lemma release_steps_triple dry_run :
  triple (fun s => entry s = e0)
    (release_steps env args dry_run (utcnow_compact env))
    (fun _ s => entry s = tagged) E.
Proof.
  unfold release_steps.
  apply triple_bind with (mid := fun _ s => entry s = e0).
  { destruct (negb (skip_ingest args)).
    - apply triple_bind with (mid := fun _ s => entry s = e0);
        [apply step_before|].
      intros _. apply triple_ret. auto.
    - apply triple_ret. auto. }
  intros _. apply triple_bind with (mid := fun _ s => entry s = e0);
    [apply step_before|].
  intros _. apply triple_bind with (mid := fun _ s => entry s = e0);
    [apply step_before|].
  intros _. apply triple_bind with (mid := fun _ s => entry s = e0);
    [apply step_provenance|].
  intros _. apply triple_bind with (mid := fun _ s => entry s = e0);
    [apply step_before|].
  intros _. apply triple_bind with (mid := fun _ s => entry s = tagged).
  { intros s Hs. simpl. rewrite Hs. reflexivity. }
  intros _. apply triple_bind with (mid := fun _ s => entry s = tagged);
    [apply step_after|].
  intros _. apply triple_bind with (mid := fun _ s => entry s = tagged);
    [apply step_after|].
  intros _. apply triple_bind with (mid := fun _ s => entry s = tagged);
    [apply step_after|].
  intros _. apply triple_ret. auto.
Qed.

(** The end of the [try] block: the deployed record and a return, or
    the aborted record and the [SystemExit]. *)
Lemma shift_and_record_result dry_run (s1 : locals) :
  exists w2,
    ledger w2 = ledger (outside s1)
    /\ (shift_and_record env args dry_run s1
        = (Ok tt,
           {| entry := set_status "deployed" (entry s1);
              outside := append_release_log (release_log_path args)
                           (set_status "deployed" (entry s1)) w2 |})
        \/ shift_and_record env args dry_run s1
           = (Raise (SystemExit abort_message),
              {| entry := aborted_entry_of (entry s1);
                 outside := append_release_log (release_log_path args)
                              (aborted_entry_of (entry s1)) w2 |})).
Proof.
  assert (H :
    shift_and_record env args dry_run s1
    = let (ok, w2) :=
        if staged_shift args
        then perform_staged_shift env (target_color env) (previous_color env)
               args dry_run (outside s1)
        else (true, outside s1) in
      if ok
      then (Ok tt,
            {| entry := set_status "deployed" (entry s1);
               outside := append_release_log (release_log_path args)
                            (set_status "deployed" (entry s1)) w2 |})
      else (Raise (SystemExit abort_message),
            {| entry := aborted_entry_of (entry s1);
               outside := append_release_log (release_log_path args)
                            (aborted_entry_of (entry s1)) w2 |})).
  { unfold shift_and_record, bind, on_world, total, assign, log_entry,
      raise, ret.
    destruct (staged_shift args); [|reflexivity].
    destruct (perform_staged_shift env (target_color env)
                (previous_color env) args dry_run (outside s1)) as [[] w2];
      reflexivity. }
  rewrite H. destruct (staged_shift args).
  - pose proof (perform_staged_shift_extends env args (target_color env)
                  (previous_color env) dry_run (outside s1)) as [L2 _].
    destruct (perform_staged_shift env (target_color env)
                (previous_color env) args dry_run (outside s1)) as [ok w2].
    simpl in L2. exists w2. split; [exact L2|].
    destruct ok; [left|right]; reflexivity.
  - exists (outside s1). split; [reflexivity|]. left. reflexivity.
Qed.

(** However [main] ends, the last thing it has done is to write one
    record, on top of a world with the ledger it started from. *)
Lemma main_endings (w : world float) :
  exists e w1,
    snd (main env args w) = append_release_log (release_log_path args) e w1
    /\ ledger w1 = ledger w
    /\ main_ending env args w (fst (main env args w)) e w1.
Proof.
  unfold main, try_block, bind.
  pose proof (release_steps_triple (negb (execute args))
                {| entry := e0; outside := w |} eq_refl) as T.
  pose proof (release_steps_ledger env args w) as L.
  destruct (release_steps env args (negb (execute args)) (utcnow_compact env)
              {| entry := e0; outside := w |}) as [[[]|exc] s1].
  - specialize (L _ _ eq_refl). cbv beta iota in T.
    destruct (shift_and_record_result (negb (execute args)) s1)
      as (w2 & L2 & [Eq|Eq]); rewrite Eq;
      cbn [fst snd outside is_CalledProcessError is_Exception];
      rewrite T.
    + eexists. exists w2. split; [reflexivity|].
      split; [congruence|constructor].
    + eexists. exists w2. split; [reflexivity|].
      split; [congruence|constructor].
  - specialize (L _ _ eq_refl).
    destruct T as (Hentry & Hlast & Hkind).
    destruct exc as [rc cmd|f|m].
    + cbn [fst snd is_CalledProcessError exn_cmd].
      eexists. exists (outside s1). split; [reflexivity|].
      split; [exact L|].
      apply EndCommandFailed; [|exact Hlast].
      destruct Hentry as [H|[H _]]; rewrite H; auto.
    + destruct Hkind as [H|H]; [discriminate|]. inv H.
      destruct Hentry as [H|[_ H]]; [|discriminate].
      cbn [fst snd is_CalledProcessError is_Exception].
      rewrite H.
      change (negb (aborted_or_failed (status e0))) with true.
      cbv iota.
      eexists. exists (outside s1). split; [reflexivity|].
      split; [exact L|constructor].
    + destruct Hkind as [H|H]; discriminate.
Qed.


(** The pipeline stops at the first command that fails: when [main] ends
    with the [CalledProcessError] of a command, that command exited with a
    status other than zero and its start is the last thing in the trace
    before the failed record is written; nothing else was started after
    it. *)
Theorem failed_command_is_last (w : world float) (rc : Z)
    (cmd : list string) :
  fst (main env args w) = Raised (CalledProcessError rc cmd) ->
  rc <> 0%Z
  /\ exists t ev e,
       trace (snd (main env args w))
       = t ++ [ev; EvMkdirParentOf (release_log_path args);
               EvAppend (release_log_path args) e]
       /\ started cmd ev
       /\ status e = "failed"%string.
Proof.
  intros H.
  destruct (main_endings w) as (e & w1 & S & L & Hend).
  rewrite H in Hend. rewrite S. inv Hend.
  match goal with
  | F : failed_last _ _ |- _ =>
      destruct (F rc cmd eq_refl) as (Hrc & t & ev & T & St)
  end.
  split; [exact Hrc|].
  exists t, ev. eexists. split; [|split; [exact St|]].
  - simpl. rewrite T. rewrite <- !app_assoc. reflexivity.
  - reflexivity.
Qed.



(** The options [--release-log] and [--metrics-out] have no effect:
    [main] reads the ledger path and the metrics path from
    [--release-log-path] and [--metrics-out-path] only. *)
Theorem unused_options_are_ignored (log out : string) (w : world float) :
  main env (set_unused_options log out args) w = main env args w.
Proof. destruct args. reflexivity. Qed.

End ControllerCases.

Section FailedRelease.

Context {float : Type}.
Variable env : environment float.
Variable args : Args float.




End FailedRelease.

(** * The further properties on the sample inputs *)

Section MoreSampleFacts.

Import Decimal Sample MoreSamples.




Lemma failed_command_is_last_witness :
  7%Z <> 0%Z
  /\ exists t ev e,
       trace (snd (main split_fails (defaults true) start))
       = t ++ [ev; EvMkdirParentOf (release_log_path (defaults true));
               EvAppend (release_log_path (defaults true)) e]
       /\ started sample_split_cmd ev
       /\ status e = "failed"%string.
Proof.
  apply (failed_command_is_last split_fails (defaults true) start 7
           sample_split_cmd).
  vm_compute; reflexivity.
Defined.




End MoreSampleFacts.
